(** * The UDF callback typedefs of [src/tmp.c]

    The translation unit consists of eight [typedef]s, each naming a
    pointer-to-function type of the user-defined-function calling
    convention.  There is no executable code: what can be verified is the
    shape of every declared type (result type, number, order and types of
    the parameters).  The typedefs are embedded as data, one record per
    declaration, written in the order and with the types of the source. *)

From Stdlib Require Import List String Bool.
Import ListNotations.
Local Open Scope string_scope.

(** ** C types occurring in the declarations *)

Module CTypes.

(** Only the type constructors the file uses.  [UDF_INIT] and [UDF_ARGS]
    are typedef names declared elsewhere; they stay opaque names. *)
Inductive ctype : Type :=
| Tvoid
| Tbool
| Tchar
| Tuchar
| Tulong
| Tdouble
| Tlonglong
| Tnamed (name : string)
| Tptr (pointee : ctype).

Fixpoint ctype_eqb (s t : ctype) : bool :=
  match s, t with
  | Tvoid, Tvoid | Tbool, Tbool | Tchar, Tchar | Tuchar, Tuchar
  | Tulong, Tulong | Tdouble, Tdouble | Tlonglong, Tlonglong => true
  | Tnamed m, Tnamed n => String.eqb m n
  | Tptr s', Tptr t' => ctype_eqb s' t'
  | _, _ => false
  end.

Definition is_pointer (t : ctype) : bool :=
  match t with Tptr _ => true | _ => false end.

End CTypes.
Export CTypes.

(** ** Declarations *)

(** [typedef R ( *name )(P1, ..., Pn);] as it is written: the result type
    and the parameter type list between the parentheses.  The parameters
    carry no identifier in the source, so none is recorded. *)
Record fnptr_typedef : Type := Typedef {
  td_name : string;
  td_result : ctype;
  td_paramlist : list ctype
}.

(** A parameter type list that is the single unnamed [void] declares a
    function without parameters; any other list declares its items. *)
Definition fn_params (d : fnptr_typedef) : list ctype :=
  match td_paramlist d with
  | [Tvoid] => []
  | l => l
  end.

Definition fn_result (d : fnptr_typedef) : ctype := td_result d.

Definition arity (d : fnptr_typedef) : nat := List.length (fn_params d).

Definition first_param (d : fnptr_typedef) : option ctype :=
  hd_error (fn_params d).

Definition has_param (t : ctype) (d : fnptr_typedef) : bool :=
  existsb (ctype_eqb t) (fn_params d).

(** The pointer types the parameter lists are built from. *)
Definition UDF_INIT_p : ctype := Tptr (Tnamed "UDF_INIT").
Definition UDF_ARGS_p : ctype := Tptr (Tnamed "UDF_ARGS").
Definition char_p : ctype := Tptr Tchar.
Definition uchar_p : ctype := Tptr Tuchar.
Definition ulong_p : ctype := Tptr Tulong.

(** The eight typedefs, line by line. *)

Definition Udf_func_clear : fnptr_typedef :=
  Typedef "Udf_func_clear" Tvoid [UDF_INIT_p; uchar_p; uchar_p].

Definition Udf_func_add : fnptr_typedef :=
  Typedef "Udf_func_add" Tvoid [UDF_INIT_p; UDF_ARGS_p; uchar_p; uchar_p].

Definition Udf_func_deinit : fnptr_typedef :=
  Typedef "Udf_func_deinit" Tvoid [UDF_INIT_p].

Definition Udf_func_init : fnptr_typedef :=
  Typedef "Udf_func_init" Tbool [UDF_INIT_p; UDF_ARGS_p; char_p].

Definition Udf_func_any : fnptr_typedef :=
  Typedef "Udf_func_any" Tvoid [Tvoid].

Definition Udf_func_double : fnptr_typedef :=
  Typedef "Udf_func_double" Tdouble [UDF_INIT_p; UDF_ARGS_p; uchar_p; uchar_p].

Definition Udf_func_longlong : fnptr_typedef :=
  Typedef "Udf_func_longlong" Tlonglong
          [UDF_INIT_p; UDF_ARGS_p; uchar_p; uchar_p].

Definition Udf_func_string : fnptr_typedef :=
  Typedef "Udf_func_string" char_p
          [UDF_INIT_p; UDF_ARGS_p; char_p; ulong_p; uchar_p; uchar_p].

(** The translation unit, in source order. *)
Definition tmp_c : list fnptr_typedef :=
  [ Udf_func_clear; Udf_func_add; Udf_func_deinit; Udf_func_init;
    Udf_func_any; Udf_func_double; Udf_func_longlong; Udf_func_string ].

(** ** Callback kinds *)

(** One constructor per alias, named after the suffix of the typedef. *)
Inductive alias : Type :=
| Clear | Add | Deinit | Init | Any | Double | Longlong | Str.

Definition all_aliases : list alias :=
  [Clear; Add; Deinit; Init; Any; Double; Longlong; Str].

Definition typedef_of (a : alias) : fnptr_typedef :=
  match a with
  | Clear => Udf_func_clear
  | Add => Udf_func_add
  | Deinit => Udf_func_deinit
  | Init => Udf_func_init
  | Any => Udf_func_any
  | Double => Udf_func_double
  | Longlong => Udf_func_longlong
  | Str => Udf_func_string
  end.

Definition alias_eqb (a b : alias) : bool :=
  match a, b with
  | Clear, Clear | Add, Add | Deinit, Deinit | Init, Init
  | Any, Any | Double, Double | Longlong, Longlong | Str, Str => true
  | _, _ => false
  end.

(** ** Parameter categories *)

(** The six categories the interface description speaks of.  The source
    names no parameter, so a category can only be recognised through the
    declared type of the parameter.  [carries] is the broadest reading,
    the types a category could at most be declared with:
    - the context is a [UDF_INIT *], the argument list a [UDF_ARGS *];
    - a length is written through an [unsigned long *];
    - a flag is one byte written through an [unsigned char *];
    - the error message is text, a [char *];
    - a result buffer is a pointer to bytes, [char *] or
      [unsigned char *].
    The reading with one type per category is [type_of_category],
    further down. *)
Inductive category : Type :=
| Context | Args | ResultBuffer | NullFlag | LengthOut | ErrorBuffer.

Definition carries (c : category) (t : ctype) : bool :=
  match c with
  | Context => ctype_eqb t UDF_INIT_p
  | Args => ctype_eqb t UDF_ARGS_p
  | ResultBuffer => ctype_eqb t uchar_p || ctype_eqb t char_p
  | NullFlag => ctype_eqb t uchar_p
  | LengthOut => ctype_eqb t ulong_p
  | ErrorBuffer => ctype_eqb t char_p
  end.

(** What a call yields, as far as the table distinguishes it. *)
Inductive result_kind : Type := RVoid | RBoolean | RValue.

Definition result_kind_of (t : ctype) : result_kind :=
  match t with
  | Tvoid => RVoid
  | Tbool => RBoolean
  | _ => RValue
  end.


(** Position-wise agreement of a list of categories with a list of types;
    lists of different lengths never agree. *)
Fixpoint all2 {A B : Type} (p : A -> B -> bool) (l : list A) (m : list B)
  : bool :=
  match l, m with
  | [], [] => true
  | x :: l', y :: m' => p x y && all2 p l' m'
  | _, _ => false
  end.



Definition has_category (c : category) (d : fnptr_typedef) : bool :=
  existsb (carries c) (fn_params d).

(** ** The table of the interface description *)

Module SpecTable.


End SpecTable.
Import SpecTable.

(** ** Positions of a type in a parameter list *)

(** The indices, counted from [i], at which the type [t] is declared in
    the list [l]. *)
Fixpoint positions_from (i : nat) (t : ctype) (l : list ctype) : list nat :=
  match l with
  | [] => []
  | u :: l' =>
      (if ctype_eqb t u then [i] else []) ++ positions_from (S i) t l'
  end.

Definition positions (t : ctype) (d : fnptr_typedef) : list nat :=
  positions_from 0 t (fn_params d).

(** The function type an alias points to: result type and parameters. *)
Definition fn_type (d : fnptr_typedef) : ctype * list ctype :=
  (fn_result d, fn_params d).

(** ** One type per category *)




(** ** Basic facts *)

Section Equality.

Lemma ctype_eqb_refl (t : ctype) : ctype_eqb t t = true.
Proof.
  induction t; simpl; trivial. apply String.eqb_refl.
Qed.

Lemma ctype_eqb_eq (s t : ctype) : ctype_eqb s t = true <-> s = t.
Proof.
  split.
  - revert t; induction s as [| | | | | | | m | s IH]; intros [] H;
      simpl in H; try discriminate; trivial.
    + apply String.eqb_eq in H. now subst.
    + f_equal. now apply IH.
  - intros ->. apply ctype_eqb_refl.
Qed.

Lemma ctype_eq_dec (s t : ctype) : {s = t} + {s <> t}.
Proof.
  destruct (ctype_eqb s t) eqn:E.
  - left. now apply ctype_eqb_eq.
  - right. intros H. apply ctype_eqb_eq in H. congruence.
Qed.

Lemma alias_eqb_eq (a b : alias) : alias_eqb a b = true <-> a = b.
Proof.
  destruct a, b; simpl; split; intro H; trivial; discriminate.
Qed.

Lemma has_param_In (t : ctype) (d : fnptr_typedef) :
  has_param t d = true <-> In t (fn_params d).
Proof.
  unfold has_param. rewrite existsb_exists. split.
  - intros (u & Hu & E). apply ctype_eqb_eq in E. now subst.
  - intros H. exists t. split; [exact H | apply ctype_eqb_refl].
Qed.

Lemma all2_length {A B : Type} (p : A -> B -> bool) (l : list A) :
  forall m, all2 p l m = true -> List.length l = List.length m.
Proof.
  induction l as [| x l IH]; intros [| y m] H; simpl in *;
    try discriminate; trivial.
  apply andb_true_iff in H. f_equal. now apply IH.
Qed.

End Equality.

(** The enumeration covers the translation unit, in order, and no two
    declarations share a name. *)
Lemma tmp_c_enumerated : tmp_c = map typedef_of all_aliases.
Proof. reflexivity. Qed.

Lemma all_aliases_complete (a : alias) : In a all_aliases.
Proof. destruct a; simpl; tauto. Qed.

Lemma typedef_names_distinct : NoDup (map td_name tmp_c).
Proof.
  repeat (constructor; [simpl; intuition discriminate |]). constructor.
Qed.

(** Only a parameter list that is exactly [(void)] is emptied. *)
Lemma fn_params_nonvoid (d : fnptr_typedef) :
  td_paramlist d <> [Tvoid] -> fn_params d = td_paramlist d.
Proof.
  unfold fn_params. destruct (td_paramlist d) as [| [] [|]]; congruence.
Qed.

(** Case analysis over the eight aliases followed by evaluation. *)
Ltac split_all :=
  repeat match goal with
         | |- _ /\ _ => split
         | |- _ <-> _ => split
         | |- _ -> _ => intro
         | H : _ /\ _ |- _ => destruct H
         end.

Ltac by_evaluation :=
  split_all;
  try (vm_compute in *;
       first [ reflexivity | discriminate | congruence | tauto
             | intuition discriminate ]).

Ltac per_alias a := destruct a; by_evaluation.

(** ** The shapes of the single aliases *)

(** C8: [Udf_func_deinit] declares exactly one parameter, the context
    ([UDF_INIT *]), and its result type is [void]. *)
Theorem deinit_shape :
  fn_params Udf_func_deinit = [UDF_INIT_p]
  /\ arity Udf_func_deinit = 1
  /\ all2 carries [Context] (fn_params Udf_func_deinit) = true
  /\ fn_result Udf_func_deinit = Tvoid.
Proof. by_evaluation. Qed.

(** C5: [Udf_func_any] has no parameter and result type [void], and it is
    the only alias of that shape: no other alias has an empty parameter
    list, with or without a [void] result. *)
Theorem any_shape_unique (a : alias) :
  (fn_params (typedef_of a) = [] /\ fn_result (typedef_of a) = Tvoid
   <-> a = Any)
  /\ (arity (typedef_of a) = 0 <-> a = Any).
Proof. per_alias a. Qed.

(** C9: [Udf_func_string] declares exactly six parameters; the last two
    are both [unsigned char *], the type of a flag, so that two parameters
    of the list can carry a flag; the result type is the pointer type
    [char *]. *)
Theorem string_six_params :
  arity Udf_func_string = 6
  /\ skipn 4 (fn_params Udf_func_string) = [uchar_p; uchar_p]
  /\ forallb (carries NullFlag) (skipn 4 (fn_params Udf_func_string)) = true
  /\ List.length (filter (carries NullFlag) (fn_params Udf_func_string)) = 2
  /\ fn_result Udf_func_string = char_p
  /\ is_pointer (fn_result Udf_func_string) = true.
Proof. by_evaluation. Qed.

(** C10: [Udf_func_add], [Udf_func_double] and [Udf_func_longlong] declare
    the same parameter list ([UDF_INIT *], [UDF_ARGS *], [unsigned char *],
    [unsigned char *]); the result types are [void], [double] and
    [long long], pairwise different. *)
Theorem add_double_longlong_params :
  fn_params Udf_func_add = [UDF_INIT_p; UDF_ARGS_p; uchar_p; uchar_p]
  /\ fn_params Udf_func_double = fn_params Udf_func_add
  /\ fn_params Udf_func_longlong = fn_params Udf_func_add
  /\ fn_result Udf_func_add = Tvoid
  /\ fn_result Udf_func_double = Tdouble
  /\ fn_result Udf_func_longlong = Tlonglong
  /\ fn_result Udf_func_double <> fn_result Udf_func_longlong
  /\ fn_result Udf_func_add <> fn_result Udf_func_double
  /\ fn_result Udf_func_add <> fn_result Udf_func_longlong.
Proof. by_evaluation. Qed.

(** ** Properties over all aliases *)

(** C4: [Udf_func_string] is the only alias with an [unsigned long *]
    parameter, the type through which a length is written out. *)
Theorem length_out_only_string (a : alias) :
  (has_param ulong_p (typedef_of a) = true <-> a = Str)
  /\ (has_category LengthOut (typedef_of a) = true <-> a = Str).
Proof. per_alias a. Qed.

(** C2, as stated, fails: [Udf_func_any] is declared with the parameter
    list [(void)], so it has no first parameter. *)
Lemma any_first_param_not_context :
  first_param (typedef_of Any) <> Some UDF_INIT_p.
Proof. by_evaluation. Qed.

(** C2, amended: every alias other than [Udf_func_any] declares the
    context, [UDF_INIT *], as its first parameter; [Udf_func_any] declares
    no parameter. *)
Theorem context_first_except_any (a : alias) (H : a <> Any) :
  first_param (typedef_of a) = Some UDF_INIT_p
  /\ carries Context UDF_INIT_p = true
  /\ first_param (typedef_of Any) = None.
Proof. destruct a; try (now elim H); by_evaluation. Qed.

Lemma context_first_except_any_witness :
  Str <> Any
  /\ first_param (typedef_of Str) = Some UDF_INIT_p
  /\ carries Context UDF_INIT_p = true
  /\ first_param (typedef_of Any) = None.
Proof.
  split; [discriminate | apply (context_first_except_any Str); discriminate].
Defined.


(** ** Further properties of the declarations *)

Ltac per_case :=
  split_all; vm_compute in *;
  try reflexivity; try discriminate;
  intuition (try reflexivity; try discriminate; try congruence).

(** X1: every parameter any of the eight aliases declares has a pointer
    type; nothing is passed by value. *)
Theorem params_are_pointers (a : alias) (t : ctype)
        (H : In t (fn_params (typedef_of a))) :
  is_pointer t = true.
Proof.
  destruct a; vm_compute in H; intuition (subst; reflexivity).
Qed.

Lemma params_are_pointers_witness :
  In ulong_p (fn_params (typedef_of Str)) /\ is_pointer ulong_p = true.
Proof.
  assert (H : In ulong_p (fn_params (typedef_of Str)))
    by (do 3 right; left; reflexivity).
  split; [exact H | exact (params_are_pointers Str ulong_p H)].
Defined.

(** X2: in every alias other than [Udf_func_any] the context type
    [UDF_INIT *] is declared exactly once, in first position; in
    [Udf_func_any] it is not declared. *)
Theorem context_exactly_once (a : alias) :
  (positions UDF_INIT_p (typedef_of a) = [0] <-> a <> Any)
  /\ (positions UDF_INIT_p (typedef_of a) = [] <-> a = Any).
Proof. destruct a; per_case. Qed.

(** X3: the argument-list type [UDF_ARGS *] is declared by exactly
    [add], [init], [double], [longlong] and [string], each time once and
    as the second parameter; [clear], [deinit] and [any] do not declare
    it. *)
Theorem args_second_only (a : alias) :
  (positions UDF_ARGS_p (typedef_of a) = [1]
   <-> In a [Add; Init; Double; Longlong; Str])
  /\ (positions UDF_ARGS_p (typedef_of a) = []
      <-> In a [Clear; Deinit; Any]).
Proof. destruct a; per_case. Qed.

(** X4: [unsigned char *] is declared by exactly [clear], [add],
    [double], [longlong] and [string], each time twice, as the last two
    parameters and nowhere else; [deinit], [init] and [any] do not
    declare it. *)
Theorem uchar_pair_trails (a : alias) :
  (positions uchar_p (typedef_of a)
   = [arity (typedef_of a) - 2; arity (typedef_of a) - 1]
   <-> In a [Clear; Add; Double; Longlong; Str])
  /\ (positions uchar_p (typedef_of a) = [] <-> In a [Deinit; Init; Any]).
Proof. destruct a; per_case. Qed.

(** X5: the result type is [void] for exactly [clear], [add], [deinit] and
    [any]; a value other than a status is returned by exactly [double],
    [longlong] and [string]; [string] is the only alias whose result is a
    pointer. *)
Theorem result_types_partition (a : alias) :
  (fn_result (typedef_of a) = Tvoid <-> In a [Clear; Add; Deinit; Any])
  /\ (result_kind_of (fn_result (typedef_of a)) = RValue
      <-> In a [Double; Longlong; Str])
  /\ (is_pointer (fn_result (typedef_of a)) = true <-> a = Str).
Proof. destruct a; per_case. Qed.

(** X6: no two aliases name the same function type, and two different
    aliases declare the same parameter list only when both are among
    [add], [double] and [longlong]. *)
Theorem fn_types_distinct (a b : alias) :
  (fn_type (typedef_of a) = fn_type (typedef_of b) <-> a = b)
  /\ (fn_params (typedef_of a) = fn_params (typedef_of b)
      <-> a = b
          \/ (In a [Add; Double; Longlong] /\ In b [Add; Double; Longlong])).
Proof. destruct a, b; per_case. Qed.


(** ** The roles of the unnamed parameters *)







